(** * The ui-composer gateway of SSR-catalog-example

    A shallow embedding of [ui-composer/src/app.js]: the start-up routine
    [start], the streaming helper [responseStream], the four routes and the
    two fallback handlers registered on the Fastify instance.

    The modules [app.js] requires but that are not part of the sources
    ([./config], [./utils/mfe-loader], [./utils/html-transformer],
    [./templates/staticPages]) and the HTTP server itself appear as the
    fields of the class [Collaborators]; every definition of the module
    [App] is parametric in them. *)

From Stdlib Require Import String List ZArith Bool Lia DecimalString.
Import ListNotations.
Open Scope string_scope.
Open Scope list_scope.

(** ** JavaScript values, errors and completions *)

Module Js.

(** An [Error] object: its [name] and its [message]. *)
Record JsError : Type := mkError { err_name : string; err_message : string }.

(** [Error.prototype.toString]. *)
Definition err_toString (e : JsError) : string :=
  if String.eqb (err_name e) "" then err_message e
  else if String.eqb (err_message e) "" then err_name e
  else (err_name e ++ ": " ++ err_message e)%string.

(** [new Error(x)]: the message is [String(x)]. *)
Definition new_Error (e : JsError) : JsError :=
  mkError "Error" (err_toString e).

Definition TypeError (msg : string) : JsError := mkError "TypeError" msg.

(** How a call or an awaited promise completes. *)
Inductive completion (A : Type) : Type :=
| Normal (a : A)
| Throw (e : JsError).
Arguments Normal {A} a.
Arguments Throw {A} e.

(** Code over a mutable state [S]. Unlike a state transformer stacked on an
    error monad, what was done to the state before a [throw] stays done. *)
Definition M (S A : Type) : Type := S -> completion A * S.

Definition ret {S A} (a : A) : M S A := fun s => (Normal a, s).

Definition bind {S A B} (m : M S A) (k : A -> M S B) : M S B :=
  fun s =>
    match m s with
    | (Normal a, s') => k a s'
    | (Throw e, s') => (Throw e, s')
    end.

Definition throw {S A} (e : JsError) : M S A := fun s => (Throw e, s).

(** [try { body } catch (err) { handler }]. *)
Definition try_catch {S A} (body : M S A) (handler : JsError -> M S A) : M S A :=
  fun s =>
    match body s with
    | (Normal a, s') => (Normal a, s')
    | (Throw e, s') => handler e s'
    end.

Definition gets {S A} (f : S -> A) : M S A := fun s => (Normal (f s), s).
Definition modify {S} (f : S -> S) : M S unit := fun s => (Normal tt, f s).

End Js.
Import Js.

Declare Scope js_scope.
Delimit Scope js_scope with js.
Notation "x <- c ;; k" := (bind c (fun x => k))
  (at level 61, c at next level, right associativity) : js_scope.
Notation "c ;; k" := (bind c (fun _ => k))
  (at level 61, right associativity) : js_scope.
Open Scope js_scope.

(** ** The response object *)

Module Http.

(** Payloads handed to [reply.send]: an object literal with scalar fields. *)
Inductive jvalue : Type :=
| JBool (b : bool)
| JString (s : string).

Definition json : Type := list (string * jvalue).

(** What has been done to one request's [reply], oldest first.
    [RawWriteHead], [RawWrite] and [RawEnd] are the calls on [reply.raw];
    [ReplySend] is [reply.code(c).send(payload)]. *)
Inductive reply_op : Type :=
| RawWriteHead (code : Z) (headers : list (string * string))
| RawWrite (chunk : string)
| RawEnd
| ReplySend (code : Z) (payload : json).

Definition reply : Type := list reply_op.

Definition is_end (o : reply_op) : bool :=
  match o with
  | RawEnd | ReplySend _ _ => true
  | _ => false
  end.

(** The header block has gone out as soon as anything was written. *)
Definition headersSent (r : reply) : bool :=
  match r with
  | [] => false
  | _ :: _ => true
  end.

(** The write channel has been closed. *)
Definition writableEnded (r : reply) : bool := existsb is_end r.

Definition ERR_HTTP_HEADERS_SENT : JsError :=
  mkError "Error" "Cannot write headers after they are sent to the client".

(** [x | 0] on an integer: the value wrapped to a signed 32-bit one. *)
Definition toInt32 (z : Z) : Z :=
  ((z + 2147483648) mod 4294967296 - 2147483648)%Z.

(** An integer as JavaScript prints it. *)
Definition number_toString (z : Z) : string :=
  NilZero.string_of_int (Z.to_int z).

Definition ERR_HTTP_INVALID_STATUS_CODE (originalStatusCode : Z) : JsError :=
  mkError "RangeError"
    ("Invalid status code: " ++ number_toString originalStatusCode)%string.

(** [reply.raw.writeHead(code, headers)]. It refuses a second header block;
    it then turns the code into an integer with [statusCode |= 0] and
    refuses one outside 100..999, naming the code it was given. Both
    refusals are exceptions. *)
Definition raw_writeHead (code : Z) (headers : list (string * string))
  : M reply unit :=
  fun r =>
    if headersSent r then (Throw ERR_HTTP_HEADERS_SENT, r)
    else
      let statusCode := toInt32 code in
      if ((statusCode <? 100) || (999 <? statusCode))%Z
      then (Throw (ERR_HTTP_INVALID_STATUS_CODE code), r)
      else (Normal tt, r ++ [RawWriteHead statusCode headers]).

(** [reply.raw.write(chunk)]: a write after the end is reported on the
    stream's error event and writes nothing; it does not throw. *)
Definition raw_write (chunk : string) : M reply unit :=
  fun r =>
    if writableEnded r then (Normal tt, r)
    else (Normal tt, r ++ [RawWrite chunk]).

(** [reply.raw.end()]. *)
Definition raw_end : M reply unit :=
  fun r =>
    if writableEnded r then (Normal tt, r)
    else (Normal tt, r ++ [RawEnd]).

(** [reply.code(code).send(payload)]: a reply that was already used is left
    alone (Fastify logs a warning). *)
Definition reply_send (code : Z) (payload : json) : M reply unit :=
  fun r =>
    if headersSent r then (Normal tt, r)
    else (Normal tt, r ++ [ReplySend code payload]).

(** A GET request; [url] is the path the router matches on, without the
    query string. *)
Record request : Type := GET { url : string }.

End Http.
Import Http.

(** ** app.js *)

Module App.

(** What [init()] resolves to. [app.js] reads two of its properties. *)
Record Config : Type := mkConfig {
  template : string;
  templatesBucket : string
}.

(** The values [app.js] passes around. *)
Inductive jsval : Type :=
| VUndefined
| VString (s : string)
| VConfig (c : Config).

Inductive port : Type :=
| PortString (s : string)
| PortNumber (n : Z).

(** The required modules, the environment and the server's socket.
    [World] is whatever they act on; [app.js] never looks inside it. *)
Class Collaborators : Type := {
  World : Type;
  (** [require('./config')] *)
  init : World -> completion Config * World;
  (** [loadFromS3] of [./utils/mfe-loader], applied to its two arguments
      in the order of the call *)
  loadFromS3 : string -> string -> World -> completion string * World;
  (** [transformTemplate] of [./utils/html-transformer], applied to the
      list of arguments of the call *)
  transformTemplate : list jsval -> World -> completion string * World;
  (** [./templates/staticPages] *)
  notFoundPage : string;
  serverErrorPage : string;
  (** [fastify.listen] *)
  listen : port -> string -> World -> completion unit * World;
  (** [process.env.PORT] *)
  env_PORT : option string
}.

(** What the process does that can be observed from outside [app.js]: the
    calls it makes, with their arguments, and the assignments to its two
    module-level variables. *)
Inductive event : Type :=
| EvInit
| EvAssignMFElist (c : Config)
| EvLoadFromS3 (arg1 arg2 : string)
| EvAssignCatalogTemplate (t : string)
| EvListen (p : port) (host : string)
| EvLogError (e : JsError)
| EvConsoleLog (e : JsError)
| EvExit (code : Z)
| EvTransformTemplate (args : list jsval).

Section WithCollaborators.
Context {C : Collaborators}.

(** The process: the two module-level variables of line 9 ([None] is
    [undefined]), the outside world, whether the socket is open, the exit
    status once [process.exit] was called, and the events so far. *)
Record proc : Type := mkProc {
  MFElist : option Config;
  catalogTemplate : option string;
  world : World;
  listening : bool;
  exitCode : option Z;
  events : list event
}.

Definition initial (w : World) : proc :=
  mkProc None None w false None [].

Definition emit (e : event) : M proc unit :=
  modify (fun p => mkProc (MFElist p) (catalogTemplate p) (world p)
                          (listening p) (exitCode p) (events p ++ [e])).

(** A call into a collaborator: it runs on the world and completes. *)
Definition call {A} (f : World -> completion A * World) : M proc A :=
  fun p =>
    let (res, w') := f (world p) in
    (res, mkProc (MFElist p) (catalogTemplate p) w'
                 (listening p) (exitCode p) (events p)).

(** [MFElist = v] *)
Definition assign_MFElist (c : Config) : M proc unit :=
  modify (fun p => mkProc (Some c) (catalogTemplate p) (world p)
                          (listening p) (exitCode p) (events p)) ;;
  emit (EvAssignMFElist c).

(** [catalogTemplate = v] *)
Definition assign_catalogTemplate (t : string) : M proc unit :=
  modify (fun p => mkProc (MFElist p) (Some t) (world p)
                          (listening p) (exitCode p) (events p)) ;;
  emit (EvAssignCatalogTemplate t).

(** [MFElist.<field>]: reading a property of [undefined] throws. *)
Definition MFElist_prop (field : Config -> string) : M proc string :=
  m <- gets MFElist ;;
  match m with
  | Some c => ret (field c)
  | None => throw (TypeError "Cannot read properties of undefined")
  end.

(** [const PORT = process.env.PORT || 3000]: the empty string is falsy. *)
Definition PORT : port :=
  match env_PORT with
  | Some s => if String.eqb s "" then PortNumber 3000 else PortString s
  | None => PortNumber 3000
  end.

Definition set_listening : M proc unit :=
  modify (fun p => mkProc (MFElist p) (catalogTemplate p) (world p)
                          true (exitCode p) (events p)).

(** [process.exit(code)] *)
Definition process_exit (code : Z) : M proc unit :=
  modify (fun p => mkProc (MFElist p) (catalogTemplate p) (world p)
                          (listening p) (Some code) (events p)) ;;
  emit (EvExit code).

(** [start], lines 59-70. *)
Definition start : M proc unit :=
  try_catch
    (emit EvInit ;;
     c <- call init ;;
     assign_MFElist c ;;
     key <- MFElist_prop template ;;
     bucket <- MFElist_prop templatesBucket ;;
     emit (EvLoadFromS3 key bucket) ;;
     t <- call (loadFromS3 key bucket) ;;
     assign_catalogTemplate t ;;
     emit (EvListen PORT "0.0.0.0") ;;
     call (listen PORT "0.0.0.0") ;;
     set_listening)
    (fun err =>
       emit (EvLogError err) ;;
       process_exit 1).

(** *** Request handling *)

(** A handler works on the process and on the reply of its request. *)
Definition ctx : Type := proc * reply.

Definition on_proc {A} (m : M proc A) : M ctx A :=
  fun s =>
    match m (fst s) with
    | (res, p') => (res, (p', snd s))
    end.

Definition on_reply {A} (m : M reply A) : M ctx A :=
  fun s =>
    match m (snd s) with
    | (res, r') => (res, (fst s, r'))
    end.

Definition text_html : list (string * string) :=
  [("Content-Type", "text/html")].

(** [responseStream], lines 11-25. [writeHead] runs during the call. The
    readable stream made from [[str]] hands its one chunk to the data
    listener and then signals its end once the call has returned; nothing
    else touches the reply in between, and the reply is taken here as it is
    when the stream has drained. *)
Definition responseStream (str : string) (code : Z) : M ctx unit :=
  on_reply (raw_writeHead code text_html) ;;
  on_reply (raw_write str) ;;
  on_reply raw_end.

Definition handler : Type := request -> M ctx unit.

(** [fastify.get('/hello', ...)] *)
Definition route_hello : handler := fun _ =>
  on_reply (reply_send 200
    [("message", JString "Welcome to the Micro-Frontends in AWS example")]).

(** [fastify.setErrorHandler] *)
Definition errorHandler (error : JsError) : handler := fun _ =>
  responseStream serverErrorPage 500.

(** [fastify.setNotFoundHandler] *)
Definition notFoundHandler : handler := fun _ =>
  responseStream notFoundPage 404.

(** [fastify.get('/error', ...)] *)
Definition route_error : handler := fun _ =>
  throw (mkError "Error" "Error").

(** [fastify.get('/health', ...)] *)
Definition route_health : handler := fun _ =>
  on_reply (reply_send 200 [("healthy", JBool true)]).

Definition vTemplate (t : option string) : jsval :=
  match t with
  | Some s => VString s
  | None => VUndefined
  end.

Definition vMFElist (m : option Config) : jsval :=
  match m with
  | Some c => VConfig c
  | None => VUndefined
  end.

(** [fastify.get('/productdetails', ...)] *)
Definition route_productdetails : handler := fun _ =>
  try_catch
    (t <- on_proc (gets catalogTemplate) ;;
     on_proc (emit (EvTransformTemplate [vTemplate t])) ;;
     catalogDetailspage <- on_proc (call (transformTemplate [vTemplate t])) ;;
     responseStream catalogDetailspage 200)
    (fun err =>
       on_proc (emit (EvConsoleLog err)) ;;
       throw (new_Error err)).

(** The routing table, in the order of registration. *)
Definition routes : list (string * handler) :=
  [ ("/hello", route_hello);
    ("/error", route_error);
    ("/health", route_health);
    ("/productdetails", route_productdetails) ].

Fixpoint lookup (path : string) (table : list (string * handler))
  : option handler :=
  match table with
  | [] => None
  | (p, h) :: rest => if String.eqb path p then Some h else lookup path rest
  end.

Definition find_route (path : string) : option handler := lookup path routes.

(** Fastify's dispatch: the handler of the matching route, whose exception
    goes to the error handler; the not-found handler when no route matches. *)
Definition dispatch (req : request) : M ctx unit :=
  match find_route (url req) with
  | Some h => try_catch (h req) (fun err => errorHandler err req)
  | None => notFoundHandler req
  end.

(** One request, served on a reply of its own. *)
Definition handle (req : request) (p : proc) : completion unit * reply * proc :=
  match dispatch req (p, []) with
  | (res, (p', r)) => (res, r, p')
  end.

Definition reply_of (req : request) (p : proc) : reply :=
  snd (fst (handle req p)).
Definition proc_after (req : request) (p : proc) : proc :=
  snd (handle req p).

(** The process takes connections: the socket is open and the process has
    not exited. *)
Definition accepting (p : proc) : bool :=
  listening p && match exitCode p with None => true | Some _ => false end.

(** Requests reach the handlers through the listening socket only. *)
Fixpoint serve (reqs : list request) (p : proc) : list reply * proc :=
  match reqs with
  | [] => ([], p)
  | req :: rest =>
      if accepting p then
        let (rs, p') := serve rest (proc_after req p) in
        (reply_of req p :: rs, p')
      else ([], p)
  end.

(** The life of the process: [start()], then the requests that arrive. *)
Definition main (w : World) (reqs : list request) : list reply * proc :=
  serve reqs (snd (start (initial w))).

(** The events a step added to those of [p]. *)
Definition new_events (p p' : proc) : list event :=
  skipn (length (events p)) (events p').

(** [p] after a step that left the two variables alone, moved the world to
    [w] and added the events [evs]. *)
Definition stepped (p : proc) (w : World) (evs : list event) : proc :=
  mkProc (MFElist p) (catalogTemplate p) w
         (listening p) (exitCode p) (events p ++ evs).

(** The cache is ready: both variables hold a value. *)
Definition ready (p : proc) : bool :=
  match MFElist p, catalogTemplate p with
  | Some _, Some _ => true
  | _, _ => false
  end.

(** What [responseStream] leaves on a fresh reply. *)
Definition streamed (code : Z) (body : string) : reply :=
  [RawWriteHead code text_html; RawWrite body; RawEnd].

Definition registered_paths : list string := map fst routes.

(** The four ways [start] can go. *)
Inductive startup : World -> proc -> Prop :=
| InitFailed w e w1 :
    init w = (Throw e, w1) ->
    startup w (mkProc None None w1 false (Some 1%Z)
                      [EvInit; EvLogError e; EvExit 1])
| LoadFailed w c w1 e w2 :
    init w = (Normal c, w1) ->
    loadFromS3 (template c) (templatesBucket c) w1 = (Throw e, w2) ->
    startup w (mkProc (Some c) None w2 false (Some 1%Z)
                      [EvInit; EvAssignMFElist c;
                       EvLoadFromS3 (template c) (templatesBucket c);
                       EvLogError e; EvExit 1])
| ListenFailed w c w1 t w2 e w3 :
    init w = (Normal c, w1) ->
    loadFromS3 (template c) (templatesBucket c) w1 = (Normal t, w2) ->
    listen PORT "0.0.0.0" w2 = (Throw e, w3) ->
    startup w (mkProc (Some c) (Some t) w3 false (Some 1%Z)
                      [EvInit; EvAssignMFElist c;
                       EvLoadFromS3 (template c) (templatesBucket c);
                       EvAssignCatalogTemplate t; EvListen PORT "0.0.0.0";
                       EvLogError e; EvExit 1])
| Started w c w1 t w2 w3 :
    init w = (Normal c, w1) ->
    loadFromS3 (template c) (templatesBucket c) w1 = (Normal t, w2) ->
    listen PORT "0.0.0.0" w2 = (Normal tt, w3) ->
    startup w (mkProc (Some c) (Some t) w3 true None
                      [EvInit; EvAssignMFElist c;
                       EvLoadFromS3 (template c) (templatesBucket c);
                       EvAssignCatalogTemplate t; EvListen PORT "0.0.0.0"]).

End WithCollaborators.

(** Events that write one of the two cached variables, or that reach the
    configuration store or the template store. *)
Definition writes_MFElist (e : event) : bool :=
  match e with EvAssignMFElist _ => true | _ => false end.
Definition writes_catalogTemplate (e : event) : bool :=
  match e with EvAssignCatalogTemplate _ => true | _ => false end.
Definition store_io (e : event) : bool :=
  match e with EvInit | EvLoadFromS3 _ _ => true | _ => false end.
Definition touches_cache_or_stores (e : event) : bool :=
  writes_MFElist e || writes_catalogTemplate e || store_io e.

(** The arguments of a transformer call hold both cached values. This is
    the invocation the specification describes, [transform(template,
    registry)], whatever the order of the two. *)
Definition invoked_on_cached_pair
  (m : option Config) (t : option string) (evs : list event) : Prop :=
  exists args,
    In (EvTransformTemplate args) evs /\
    In (vMFElist m) args /\ In (vTemplate t) args.

(** The content route as the specification words it: with the cache
    ready, the transformer is called on the cached pair. *)
Definition composes_from_cached_pair {C : Collaborators} : Prop :=
  forall p : proc,
    ready p = true ->
    invoked_on_cached_pair (MFElist p) (catalogTemplate p)
      (new_events p (proc_after (GET "/productdetails") p)).

(** The start-up order as the specification words it: load, then
    [fetch(bucket, key)], then the cache is set, then the socket opens. *)
Definition startup_as_specified (c : Config) (t : string) (evs : list event)
  : Prop :=
  exists p host,
    evs = [ EvInit;
            EvLoadFromS3 (templatesBucket c) (template c);
            EvAssignMFElist c;
            EvAssignCatalogTemplate t;
            EvListen p host ].

(** A run of the service with stand-ins for the collaborators: the world
    counts their calls, and the three flags say which of them work. *)
Definition sample_config : Config := mkConfig "catalog.html" "mfe-templates".
Definition sample_template : string := "<html><body><div id='catalog'></div></body></html>".

Definition sample (init_ok load_ok transform_ok : bool) : Collaborators := {|
  World := nat;
  init := fun w =>
    if init_ok then (Normal sample_config, S w)
    else (Throw (mkError "ParameterNotFound" "/ssr-mfe/catalogpage"), S w);
  loadFromS3 := fun key bucket w =>
    if load_ok && String.eqb key "catalog.html"
               && String.eqb bucket "mfe-templates"
    then (Normal sample_template, S w)
    else (Throw (mkError "NoSuchKey" key), S w);
  transformTemplate := fun args w =>
    match args with
    | VString t :: _ =>
        if transform_ok then (Normal (t ++ "<!-- composed -->")%string, S w)
        else (Throw (mkError "Error" "fragment unavailable"), S w)
    | _ => (Throw (TypeError "template is not a string"), S w)
    end;
  notFoundPage := "<h1>Page not found</h1>";
  serverErrorPage := "<h1>Something went wrong</h1>";
  listen := fun _ _ w => (Normal tt, S w);
  env_PORT := None
|}.

(** The run in which everything works, and the process once started. *)
Definition working : Collaborators := sample true true true.
Definition started : @proc working := snd (@start working (@initial working 0)).

(** The runs in which the transformer, or the template fetch, fails. *)
Definition broken_transformer : Collaborators := sample true true false.
Definition missing_template : Collaborators := sample true false true.

End App.

(** ** Observations on a run *)

Module Run.
Import App.

(** The event is a call of the transformer. *)
Definition calls_transformer (e : event) : bool :=
  match e with EvTransformTemplate _ => true | _ => false end.

(** The reply is a whole answer: its header block is out and its channel
    is closed. *)
Definition complete (r : reply) : bool := headersSent r && writableEnded r.

(** The request is for the content route. *)
Definition is_productdetails (req : request) : bool :=
  String.eqb (url req) "/productdetails".

(** A run in which the registry and the template load but the socket
    cannot be opened. *)
Definition port_in_use : Collaborators := {|
  World := nat;
  init := @init working;
  loadFromS3 := @loadFromS3 working;
  transformTemplate := @transformTemplate working;
  notFoundPage := @notFoundPage working;
  serverErrorPage := @serverErrorPage working;
  listen := fun _ _ w => (Throw (mkError "Error" "listen EADDRINUSE"), S w);
  env_PORT := Some "8080"
|}.

(** A run in which the configuration store cannot be read. *)
Definition missing_config : Collaborators := sample false true true.

(** The started process of the working run with the registry variable
    cleared, and with the template variable cleared. *)
Definition started_without_registry : @proc working :=
  @mkProc working None (@catalogTemplate working started)
    (@world working started) true None (@events working started).
Definition started_without_template : @proc working :=
  @mkProc working (@MFElist working started) None
    (@world working started) true None (@events working started).

End Run.

(** * Properties of the gateway *)

Import App.

Section Gateway.
Context {C : Collaborators}.

(** ** The streaming helper *)

Lemma skipn_length_app {A} (l l' : list A) : skipn (length l) (l ++ l') = l'.
Proof. induction l as [|a l IH]; simpl; [reflexivity | exact IH]. Qed.

Lemma new_events_stepped p w evs : new_events p (stepped p w evs) = evs.
Proof. unfold new_events, stepped; simpl. apply skipn_length_app. Qed.

Lemma toInt32_small (z : Z) :
  (-2147483648 <= z < 2147483648)%Z -> toInt32 z = z.
Proof.
  intros Hz. unfold toInt32. rewrite Z.mod_small by lia. lia.
Qed.

Lemma valid_status (code : Z) :
  (100 <= code <= 999)%Z ->
  toInt32 code = code /\ ((code <? 100) || (999 <? code))%Z = false.
Proof.
  intros [Hlo Hhi]. split.
  - apply toInt32_small. lia.
  - apply orb_false_iff; split; apply Z.ltb_ge; assumption.
Qed.

Lemma responseStream_fresh str code p :
  (100 <= code <= 999)%Z ->
  responseStream str code (p, []) = (Normal tt, (p, streamed code str)).
Proof.
  intros Hc. destruct (valid_status code Hc) as [Hid Hok].
  unfold responseStream, bind, on_reply, raw_writeHead.
  cbn [fst snd headersSent]. rewrite Hid, Hok. reflexivity.
Qed.

(** [responseStream] throws from [writeHead] or not at all, and then the
    reply is as it was. *)
Lemma responseStream_throws str code p r e s :
  responseStream str code (p, r) = (Throw e, s) ->
  s = (p, r) /\
  (headersSent r = true \/
   ((toInt32 code <? 100) || (999 <? toInt32 code))%Z = true).
Proof.
  unfold responseStream, bind, on_reply, raw_writeHead.
  cbn [fst snd].
  destruct (headersSent r) eqn:Hs.
  - intros H; inversion H; auto.
  - destruct ((toInt32 code <? 100) || (999 <? toInt32 code))%Z eqn:Hc.
    + intros H; inversion H; auto.
    + unfold raw_write, raw_end. cbn [fst snd].
      destruct (writableEnded (r ++ [RawWriteHead (toInt32 code) text_html]));
        cbn [fst snd].
      * destruct (writableEnded
                    (r ++ [RawWriteHead (toInt32 code) text_html]));
          discriminate.
      * destruct (writableEnded
                    ((r ++ [RawWriteHead (toInt32 code) text_html])
                       ++ [RawWrite str]));
          discriminate.
Qed.

(** ** The routes *)

Lemma run_health req p r :
  route_health req (p, r) =
  (Normal tt, (p, if headersSent r then r
                  else r ++ [ReplySend 200 [("healthy", JBool true)]])).
Proof.
  unfold route_health, on_reply, reply_send; simpl.
  destruct (headersSent r); reflexivity.
Qed.

Lemma run_error req s :
  route_error req s = (Throw (mkError "Error" "Error"), s).
Proof. reflexivity. Qed.

Lemma run_productdetails req p :
  route_productdetails req (p, []) =
  match transformTemplate [vTemplate (catalogTemplate p)] (world p) with
  | (Normal html, w) =>
      (Normal tt,
       (stepped p w [EvTransformTemplate [vTemplate (catalogTemplate p)]],
        streamed 200 html))
  | (Throw e, w) =>
      (Throw (new_Error e),
       (stepped p w [EvTransformTemplate [vTemplate (catalogTemplate p)];
                     EvConsoleLog e],
        []))
  end.
Proof.
  unfold route_productdetails, try_catch, bind, on_proc, gets, emit, modify,
    call, throw; simpl.
  destruct (transformTemplate [vTemplate (catalogTemplate p)] (world p))
    as [[html|e] w]; simpl.
  - unfold stepped; simpl. reflexivity.
  - unfold stepped; simpl. rewrite <- app_assoc. reflexivity.
Qed.

Lemma run_errorHandler err req p :
  errorHandler err req (p, []) = (Normal tt, (p, streamed 500 serverErrorPage)).
Proof. unfold errorHandler. apply responseStream_fresh. lia. Qed.

Lemma run_notFoundHandler req p :
  notFoundHandler req (p, []) = (Normal tt, (p, streamed 404 notFoundPage)).
Proof. unfold notFoundHandler. apply responseStream_fresh. lia. Qed.

(** The routing table has four entries and no other. *)
Lemma find_route_cases path h :
  find_route path = Some h ->
  (path = "/hello" /\ h = route_hello) \/
  (path = "/error" /\ h = route_error) \/
  (path = "/health" /\ h = route_health) \/
  (path = "/productdetails" /\ h = route_productdetails).
Proof.
  unfold find_route, routes; simpl.
  destruct (String.eqb_spec path "/hello") as [-> | _];
    [intros H; inversion H; auto |].
  destruct (String.eqb_spec path "/error") as [-> | _];
    [intros H; inversion H; auto |].
  destruct (String.eqb_spec path "/health") as [-> | _];
    [intros H; inversion H; auto |].
  destruct (String.eqb_spec path "/productdetails") as [-> | _];
    [intros H; inversion H; auto 6 | discriminate].
Qed.

Lemma lookup_None path table :
  lookup path table = None <-> ~ In path (map fst table).
Proof.
  induction table as [|[q h] rest IH]; simpl.
  - split; [intros _ [] | reflexivity].
  - destruct (String.eqb_spec path q) as [-> | Hne].
    + split; [discriminate | intros H; exfalso; apply H; left; reflexivity].
    + rewrite IH. split.
      * intros H [Heq | Hin]; [apply Hne; symmetry; exact Heq | exact (H Hin)].
      * intros H Hin; apply H; right; exact Hin.
Qed.

Lemma find_route_None path :
  find_route path = None <-> ~ In path registered_paths.
Proof. apply lookup_None. Qed.

(** ** One request *)

Lemma handle_hello p :
  handle (GET "/hello") p =
  (Normal tt,
   [ReplySend 200
      [("message", JString "Welcome to the Micro-Frontends in AWS example")]],
   p).
Proof. reflexivity. Qed.

Lemma handle_health p :
  handle (GET "/health") p =
  (Normal tt, [ReplySend 200 [("healthy", JBool true)]], p).
Proof. reflexivity. Qed.

Lemma handle_error p :
  handle (GET "/error") p = (Normal tt, streamed 500 serverErrorPage, p).
Proof. reflexivity. Qed.

Lemma handle_productdetails p :
  handle (GET "/productdetails") p =
  match transformTemplate [vTemplate (catalogTemplate p)] (world p) with
  | (Normal html, w) =>
      (Normal tt, streamed 200 html,
       stepped p w [EvTransformTemplate [vTemplate (catalogTemplate p)]])
  | (Throw e, w) =>
      (Normal tt, streamed 500 serverErrorPage,
       stepped p w [EvTransformTemplate [vTemplate (catalogTemplate p)];
                    EvConsoleLog e])
  end.
Proof.
  unfold handle, dispatch.
  change (find_route (url (GET "/productdetails")))
    with (Some route_productdetails).
  unfold try_catch. rewrite run_productdetails.
  destruct (transformTemplate [vTemplate (catalogTemplate p)] (world p))
    as [[html|e] w].
  - reflexivity.
  - rewrite run_errorHandler. reflexivity.
Qed.

Lemma handle_unmatched req p :
  find_route (url req) = None ->
  handle req p = (Normal tt, streamed 404 notFoundPage, p).
Proof.
  intros Hnone. unfold handle, dispatch. rewrite Hnone.
  rewrite run_notFoundHandler. reflexivity.
Qed.

(** Every request falls under one of the five cases above. *)
Lemma request_cases req :
  req = GET "/hello" \/ req = GET "/error" \/ req = GET "/health" \/
  req = GET "/productdetails" \/ find_route (url req) = None.
Proof.
  destruct req as [path]; simpl.
  destruct (find_route path) as [h|] eqn:Hr; [| auto 6].
  destruct (find_route_cases path h Hr) as [[-> _]|[[-> _]|[[-> _]|[-> _]]]];
    auto 6.
Qed.

Lemma stepped_id p : stepped p (world p) [] = p.
Proof. destruct p; unfold stepped; simpl. rewrite app_nil_r. reflexivity. Qed.

Lemma stepped_stepped p w1 evs1 w2 evs2 :
  stepped (stepped p w1 evs1) w2 evs2 = stepped p w2 (evs1 ++ evs2).
Proof. unfold stepped; simpl. rewrite app_assoc. reflexivity. Qed.

(** A request leaves the two variables alone and adds no event that
    writes them or reaches one of the two stores. *)
Lemma handle_steps req p :
  exists w evs,
    proc_after req p = stepped p w evs /\
    filter touches_cache_or_stores evs = [].
Proof.
  unfold proc_after.
  destruct (request_cases req) as [-> | [-> | [-> | [-> | Hnone]]]].
  - rewrite handle_hello. exists (world p), []. rewrite stepped_id. auto.
  - rewrite handle_error. exists (world p), []. rewrite stepped_id. auto.
  - rewrite handle_health. exists (world p), []. rewrite stepped_id. auto.
  - rewrite handle_productdetails.
    destruct (transformTemplate [vTemplate (catalogTemplate p)] (world p))
      as [[html|e] w]; simpl; eauto.
  - rewrite (handle_unmatched req p Hnone).
    exists (world p), []. rewrite stepped_id. auto.
Qed.

Lemma serve_steps reqs : forall p,
  exists w evs,
    snd (serve reqs p) = stepped p w evs /\
    filter touches_cache_or_stores evs = [].
Proof.
  induction reqs as [|req rest IH]; intros p; simpl.
  - exists (world p), []. rewrite stepped_id. auto.
  - destruct (accepting p).
    + destruct (handle_steps req p) as (w1 & evs1 & Hp1 & Hf1).
      destruct (IH (proc_after req p)) as (w2 & evs2 & Hp2 & Hf2).
      destruct (serve rest (proc_after req p)) as [rs p2]; simpl in *.
      exists w2, (evs1 ++ evs2). split.
      * rewrite Hp2, Hp1. apply stepped_stepped.
      * rewrite filter_app, Hf1, Hf2. reflexivity.
    + exists (world p), []. rewrite stepped_id. auto.
Qed.

(** Whatever the request, the dispatch completes and leaves a reply whose
    header block is out and whose channel is closed. *)
Lemma reply_is_complete req q :
  fst (fst (handle req q)) = Normal tt /\
  headersSent (reply_of req q) = true /\
  writableEnded (reply_of req q) = true.
Proof.
  unfold reply_of.
  destruct (request_cases req) as [-> | [-> | [-> | [-> | Hnone]]]].
  - rewrite handle_hello. auto.
  - rewrite handle_error. auto.
  - rewrite handle_health. auto.
  - rewrite handle_productdetails.
    destruct (transformTemplate [vTemplate (catalogTemplate q)] (world q))
      as [[html|e] w]; auto.
  - rewrite (handle_unmatched req q Hnone). auto.
Qed.

Lemma serve_not_accepting reqs p :
  accepting p = false -> serve reqs p = ([], p).
Proof. intros H. destruct reqs; simpl; [| rewrite H]; reflexivity. Qed.

(** ** Start-up *)

Lemma start_startup w : startup w (snd (start (initial w))).
Proof.
  unfold start, try_catch, bind, emit, modify, call, assign_MFElist,
    assign_catalogTemplate, MFElist_prop, gets, ret, set_listening,
    process_exit, initial; simpl.
  destruct (init w) as [[c|e] w1] eqn:Hi; simpl.
  - unfold bind, modify; simpl.
    destruct (loadFromS3 (template c) (templatesBucket c) w1)
      as [[t|e] w2] eqn:Hl; simpl.
    + destruct (listen PORT "0.0.0.0" w2) as [[[]|e] w3] eqn:Hs; simpl.
      * eapply Started; eassumption.
      * eapply ListenFailed; eassumption.
    + eapply LoadFailed; eassumption.
  - eapply InitFailed; eassumption.
Qed.

Lemma start_completes w : fst (start (initial w)) = Normal tt.
Proof.
  unfold start, try_catch, bind, emit, modify, call, assign_MFElist,
    assign_catalogTemplate, MFElist_prop, gets, ret, set_listening,
    process_exit, initial; simpl.
  destruct (init w) as [[c|e] w1]; simpl; [| reflexivity].
  unfold bind, modify; simpl.
  destruct (loadFromS3 (template c) (templatesBucket c) w1)
    as [[t|e] w2]; simpl; [| reflexivity].
  destruct (listen PORT "0.0.0.0" w2) as [[[]|e] w3]; reflexivity.
Qed.

(** ** The claims about start-up *)

(** C3. When the registry load or the template fetch fails, [start] reports
    the error and exits with status 1; [fastify.listen] is never called,
    the socket is never open, and no request gets a reply. *)
Theorem startup_failure_is_fatal (w : World) (reqs : list request) :
  (exists e w1, init w = (Throw e, w1)) \/
  (exists c w1 e w2,
      init w = (Normal c, w1) /\
      loadFromS3 (template c) (templatesBucket c) w1 = (Throw e, w2)) ->
  let p := snd (start (initial w)) in
  exitCode p = Some 1%Z /\
  listening p = false /\
  (forall pt host, ~ In (EvListen pt host) (events p)) /\
  (exists e, In (EvLogError e) (events p)) /\
  main w reqs = ([], p).
Proof.
  intros Hfail p. unfold main. fold p.
  assert (Hacc : exitCode p = Some 1%Z /\ listening p = false /\
                 (forall pt host, ~ In (EvListen pt host) (events p)) /\
                 (exists e, In (EvLogError e) (events p))).
  { subst p. destruct (start_startup w) as
        [w e w1 Hi | w c w1 e w2 Hi Hl | w c w1 t w2 e w3 Hi Hl Hs
        | w c w1 t w2 w3 Hi Hl Hs]; simpl.
    - repeat split; [| exists e; simpl; auto].
      intros pt host [H|[H|[H|[]]]]; discriminate.
    - repeat split; [| exists e; simpl; auto 6].
      intros pt host [H|[H|[H|[H|[H|[]]]]]]; discriminate.
    - exfalso. destruct Hfail as [(e' & w' & H) | (c' & w1' & e' & w2' & H1 & H2)].
      + rewrite Hi in H. discriminate.
      + rewrite Hi in H1. inversion H1; subst. rewrite Hl in H2. discriminate.
    - exfalso. destruct Hfail as [(e' & w' & H) | (c' & w1' & e' & w2' & H1 & H2)].
      + rewrite Hi in H. discriminate.
      + rewrite Hi in H1. inversion H1; subst. rewrite Hl in H2. discriminate. }
  destruct Hacc as (Hex & Hli & Hno & Hlog).
  repeat split; try assumption.
  apply serve_not_accepting. unfold accepting. rewrite Hli. reflexivity.
Qed.

(** C4, as the code has it. When the three start-up calls succeed, [start]
    does, in this order: [init()]; the assignment of [MFElist];
    [loadFromS3(MFElist.template, MFElist.templatesBucket)], the key first
    and the bucket second; the assignment of [catalogTemplate];
    [fastify.listen]. Whenever the socket is open after [start], both
    variables hold a value. *)
Theorem startup_order (w : World) (c : Config) (w1 : World) (t : string)
    (w2 w3 : World) :
  init w = (Normal c, w1) ->
  loadFromS3 (template c) (templatesBucket c) w1 = (Normal t, w2) ->
  listen PORT "0.0.0.0" w2 = (Normal tt, w3) ->
  start (initial w) =
    (Normal tt,
     mkProc (Some c) (Some t) w3 true None
            [ EvInit;
              EvAssignMFElist c;
              EvLoadFromS3 (template c) (templatesBucket c);
              EvAssignCatalogTemplate t;
              EvListen PORT "0.0.0.0" ]) /\
  (forall w', listening (snd (start (initial w'))) = true ->
              ready (snd (start (initial w'))) = true).
Proof.
  intros Hi Hl Hs. split.
  - rewrite (surjective_pairing (start (initial w))), start_completes.
    f_equal.
    destruct (start_startup w) as
        [w e w1' Hi' | w c' w1' e w2' Hi' Hl' | w c' w1' t' w2' e w3' Hi' Hl' Hs'
        | w c' w1' t' w2' w3' Hi' Hl' Hs'].
    + rewrite Hi in Hi'. discriminate.
    + rewrite Hi in Hi'. inversion Hi'; subst.
      rewrite Hl in Hl'. discriminate.
    + rewrite Hi in Hi'. inversion Hi'; subst.
      rewrite Hl in Hl'. inversion Hl'; subst.
      rewrite Hs in Hs'. discriminate.
    + rewrite Hi in Hi'. inversion Hi'; subst.
      rewrite Hl in Hl'. inversion Hl'; subst.
      rewrite Hs in Hs'. inversion Hs'; subst. reflexivity.
  - intros w'. destruct (start_startup w'); simpl; intros Hopen;
      try discriminate; reflexivity.
Qed.

(** C5. After a start-up that opened the socket, whatever requests are
    served: the two cached variables hold what [start] put there; over the
    whole run each of them was assigned exactly once and each store was
    read exactly once, all of it by [start]; and no request, in whatever
    state it is handled, changes the variables or adds an event that
    writes them or reaches a store. *)
Theorem cache_written_once_at_startup (w : World) (reqs : list request) :
  listening (snd (start (initial w))) = true ->
  let p0 := snd (start (initial w)) in
  let p := snd (main w reqs) in
  ready p0 = true /\
  MFElist p = MFElist p0 /\
  catalogTemplate p = catalogTemplate p0 /\
  length (filter writes_MFElist (events p)) = 1 /\
  length (filter writes_catalogTemplate (events p)) = 1 /\
  length (filter store_io (events p)) = 2 /\
  filter touches_cache_or_stores (new_events p0 p) = [] /\
  (forall req q,
      MFElist (proc_after req q) = MFElist q /\
      catalogTemplate (proc_after req q) = catalogTemplate q /\
      filter touches_cache_or_stores (new_events q (proc_after req q)) = []).
Proof.
  intros Hlisten p0 p. subst p. unfold main. fold p0.
  destruct (serve_steps reqs p0) as (w' & evs & Hp & Hf).
  rewrite Hp, new_events_stepped.
  assert (Hsplit : forall f,
            (forall e, f e = true -> touches_cache_or_stores e = true) ->
            filter f evs = []).
  { intros f Hsub. clear Hp. induction evs as [|e evs IH]; [reflexivity|].
    simpl in Hf. destruct (touches_cache_or_stores e) eqn:He; [discriminate|].
    simpl. destruct (f e) eqn:Hfe.
    - apply Hsub in Hfe. congruence.
    - apply IH. exact Hf. }
  assert (H1 : filter writes_MFElist evs = []).
  { apply Hsplit. intros e He. unfold touches_cache_or_stores.
    rewrite He. reflexivity. }
  assert (H2 : filter writes_catalogTemplate evs = []).
  { apply Hsplit. intros e He. unfold touches_cache_or_stores.
    rewrite He. apply orb_true_iff. left. apply orb_true_r. }
  assert (H3 : filter store_io evs = []).
  { apply Hsplit. intros e He. unfold touches_cache_or_stores.
    rewrite He. apply orb_true_r. }
  unfold stepped; simpl. rewrite !filter_app, H1, H2, H3, !app_nil_r.
  assert (Hstart : ready p0 = true /\
                   length (filter writes_MFElist (events p0)) = 1 /\
                   length (filter writes_catalogTemplate (events p0)) = 1 /\
                   length (filter store_io (events p0)) = 2).
  { subst p0. destruct (start_startup w); simpl in Hlisten;
      try discriminate. simpl. auto. }
  destruct Hstart as (Hr & Ha & Hb & Hc).
  repeat split; try assumption.
  - destruct (handle_steps req q) as (w1 & evs1 & Hq & _).
    rewrite Hq. reflexivity.
  - destruct (handle_steps req q) as (w1 & evs1 & Hq & _).
    rewrite Hq. reflexivity.
  - destruct (handle_steps req q) as (w1 & evs1 & Hq & Hf1).
    rewrite Hq, new_events_stepped. exact Hf1.
Qed.

(** ** The claims about requests *)

(** C1, as the code has it. With the cache ready, [GET /productdetails]
    calls the transformer once, on the cached template alone (the registry
    is not among the arguments); when that call succeeds the composed page
    is streamed with status 200 and content type text/html, and the channel
    is closed. *)
Theorem productdetails_streams_composed_page
    (p : proc) (c : Config) (t html : string) (w : World) :
  MFElist p = Some c ->
  catalogTemplate p = Some t ->
  transformTemplate [VString t] (world p) = (Normal html, w) ->
  handle (GET "/productdetails") p =
    (Normal tt,
     [RawWriteHead 200 [("Content-Type", "text/html")]; RawWrite html; RawEnd],
     stepped p w [EvTransformTemplate [VString t]]).
Proof.
  intros _ Ht Hok. rewrite handle_productdetails, Ht. simpl.
  rewrite Hok. reflexivity.
Qed.

(** C2. When the handler of the matching route throws, and in particular
    when the transformer fails under [GET /productdetails], the error
    handler answers: status 500, the fixed error page, channel closed.
    Nothing else is written, so neither composed output nor the text of the
    error reaches the client. *)
Theorem handler_exception_gives_500 (req : request) (p : proc) :
  (exists h e s,
      find_route (url req) = Some h /\ h req (p, []) = (Throw e, s)) \/
  (req = GET "/productdetails" /\
   exists e w,
     transformTemplate [vTemplate (catalogTemplate p)] (world p) = (Throw e, w)) ->
  fst (handle req p) =
    (Normal tt,
     [RawWriteHead 500 [("Content-Type", "text/html")];
      RawWrite serverErrorPage; RawEnd]) /\
  MFElist (proc_after req p) = MFElist p /\
  catalogTemplate (proc_after req p) = catalogTemplate p.
Proof.
  intros Hthrow.
  assert (Hcache : MFElist (proc_after req p) = MFElist p /\
                   catalogTemplate (proc_after req p) = catalogTemplate p).
  { destruct (handle_steps req p) as (w1 & evs1 & Hq & _).
    rewrite Hq. split; reflexivity. }
  split; [| exact Hcache]. clear Hcache.
  destruct (request_cases req) as [-> | [-> | [-> | [-> | Hnone]]]].
  - exfalso. destruct Hthrow as [(h & e & s & Hr & Hh) | [Hq _]];
      [| discriminate].
    inversion Hr; subst h. discriminate.
  - rewrite handle_error. reflexivity.
  - exfalso. destruct Hthrow as [(h & e & s & Hr & Hh) | [Hq _]];
      [| discriminate].
    inversion Hr; subst h. discriminate.
  - rewrite handle_productdetails.
    destruct (transformTemplate [vTemplate (catalogTemplate p)] (world p))
      as [[html|e0] w0] eqn:Ht; [exfalso | reflexivity].
    destruct Hthrow as [(h & e & s & Hr & Hh) | [_ (e & w & He)]].
    + inversion Hr; subst h. rewrite run_productdetails, Ht in Hh.
      discriminate.
    + discriminate.
  - exfalso. destruct Hthrow as [(h & e & s & Hr & Hh) | [Hq _]].
    + rewrite Hnone in Hr. discriminate.
    + subst req. discriminate.
Qed.

(** C7. [GET /health] completes normally with status 200 and the payload
    [{healthy: true}], leaves the process as it was, and answers the same
    in every state of the process, the two variables unset included. *)
Theorem health_always_healthy (p : proc) :
  handle (GET "/health") p =
    (Normal tt, [ReplySend 200 [("healthy", JBool true)]], p) /\
  (forall q : proc,
      reply_of (GET "/health") q = reply_of (GET "/health") p).
Proof. split; [apply handle_health | reflexivity]. Qed.

(** C8. A request whose path is none of the registered ones gets status
    404, the fixed not-found page, a closed channel and nothing else; the
    process is left as it was. *)
Theorem unmatched_path_is_404 (req : request) (p : proc) :
  ~ In (url req) registered_paths ->
  handle req p =
    (Normal tt,
     [RawWriteHead 404 [("Content-Type", "text/html")];
      RawWrite notFoundPage; RawEnd],
     p).
Proof.
  intros Hout. apply handle_unmatched. apply find_route_None. exact Hout.
Qed.


(** C10. [/error] is a registered route; its handler throws on every call,
    so [GET /error] is answered by the error handler with status 500 and
    the fixed error page, which is not the 404 answer of an unmatched
    path. *)
Theorem error_route_gives_500 (p : proc) :
  In "/error" registered_paths /\
  find_route "/error" = Some route_error /\
  (forall req s, route_error req s = (Throw (mkError "Error" "Error"), s)) /\
  handle (GET "/error") p =
    (Normal tt,
     [RawWriteHead 500 [("Content-Type", "text/html")];
      RawWrite serverErrorPage; RawEnd],
     p) /\
  reply_of (GET "/error") p <>
    [RawWriteHead 404 [("Content-Type", "text/html")];
     RawWrite notFoundPage; RawEnd].
Proof.
  repeat split.
  - simpl. auto.
  - unfold reply_of. rewrite handle_error. simpl. intros H. discriminate.
Qed.

End Gateway.

(** ** The sample run *)

Lemma productdetails_streams_composed_page_witness :
  @MFElist working started = Some sample_config /\
  @catalogTemplate working started = Some sample_template /\
  @transformTemplate working [VString sample_template] (@world working started)
    = (Normal (sample_template ++ "<!-- composed -->")%string, 4) /\
  @handle working (GET "/productdetails") started =
    (Normal tt,
     [RawWriteHead 200 [("Content-Type", "text/html")];
      RawWrite (sample_template ++ "<!-- composed -->")%string; RawEnd],
     @stepped working started 4 [EvTransformTemplate [VString sample_template]]).
Proof.
  split; [reflexivity | split; [reflexivity | split; [reflexivity |]]].
  apply (@productdetails_streams_composed_page working started sample_config
           sample_template (sample_template ++ "<!-- composed -->")%string 4);
    reflexivity.
Defined.

(** C1 as worded fails on the sample run: the cache is ready and the one
    transformer call of [GET /productdetails] has the template for its only
    argument, so the registry is not passed. *)
Lemma productdetails_registry_not_passed :
  @ready working started = true /\
  @new_events working started
     (@proc_after working (GET "/productdetails") started)
    = [EvTransformTemplate [VString sample_template]] /\
  ~ invoked_on_cached_pair (@MFElist working started)
      (@catalogTemplate working started)
      (@new_events working started
         (@proc_after working (GET "/productdetails") started)) /\
  ~ @composes_from_cached_pair working.
Proof.
  assert (Hno : ~ invoked_on_cached_pair (@MFElist working started)
                  (@catalogTemplate working started)
                  (@new_events working started
                     (@proc_after working (GET "/productdetails") started))).
  { intros (args & Hin & Hm & _).
    vm_compute in Hin. destruct Hin as [Hin | []].
    inversion Hin; subst args.
    vm_compute in Hm. destruct Hm as [Hm | []]. discriminate. }
  split; [reflexivity | split; [reflexivity | split; [exact Hno |]]].
  intros Hall. apply Hno. apply Hall. reflexivity.
Qed.

Lemma handler_exception_gives_500_witness :
  let p := snd (@start broken_transformer (@initial broken_transformer 0)) in
  ((exists h e s,
       @find_route broken_transformer (url (GET "/productdetails")) = Some h /\
       h (GET "/productdetails") (p, []) = (Throw e, s)) \/
   (GET "/productdetails" = GET "/productdetails" /\
    exists e w,
      @transformTemplate broken_transformer
        [vTemplate (@catalogTemplate broken_transformer p)]
        (@world broken_transformer p) = (Throw e, w))) /\
  (fst (@handle broken_transformer (GET "/productdetails") p) =
     (Normal tt,
      [RawWriteHead 500 [("Content-Type", "text/html")];
       RawWrite (@serverErrorPage broken_transformer); RawEnd]) /\
   @MFElist broken_transformer
      (@proc_after broken_transformer (GET "/productdetails") p)
     = @MFElist broken_transformer p /\
   @catalogTemplate broken_transformer
      (@proc_after broken_transformer (GET "/productdetails") p)
     = @catalogTemplate broken_transformer p).
Proof.
  intros p.
  assert (H : (exists h e s,
       @find_route broken_transformer (url (GET "/productdetails")) = Some h /\
       h (GET "/productdetails") (p, []) = (Throw e, s)) \/
   (GET "/productdetails" = GET "/productdetails" /\
    exists e w,
      @transformTemplate broken_transformer
        [vTemplate (@catalogTemplate broken_transformer p)]
        (@world broken_transformer p) = (Throw e, w))).
  { right. split; [reflexivity |].
    exists (mkError "Error" "fragment unavailable"), 4. reflexivity. }
  split; [exact H |].
  exact (@handler_exception_gives_500 broken_transformer
           (GET "/productdetails") p H).
Defined.

Lemma startup_failure_is_fatal_witness :
  let p := snd (@start missing_template (@initial missing_template 0)) in
  ((exists e w1, @init missing_template 0 = (Throw e, w1)) \/
   (exists c w1 e w2,
       @init missing_template 0 = (Normal c, w1) /\
       @loadFromS3 missing_template (template c) (templatesBucket c) w1
         = (Throw e, w2))) /\
  (@exitCode missing_template p = Some 1%Z /\
   @listening missing_template p = false /\
   (forall pt host, ~ In (EvListen pt host) (@events missing_template p)) /\
   (exists e, In (EvLogError e) (@events missing_template p)) /\
   @main missing_template 0 [GET "/health"; GET "/productdetails"] = ([], p)).
Proof.
  intros p.
  assert (H : (exists e w1, @init missing_template 0 = (Throw e, w1)) \/
   (exists c w1 e w2,
       @init missing_template 0 = (Normal c, w1) /\
       @loadFromS3 missing_template (template c) (templatesBucket c) w1
         = (Throw e, w2))).
  { right. exists sample_config, 1, (mkError "NoSuchKey" "catalog.html"), 2.
    split; reflexivity. }
  split; [exact H |].
  exact (@startup_failure_is_fatal missing_template 0
           [GET "/health"; GET "/productdetails"] H).
Defined.

Lemma startup_order_witness :
  @init working 0 = (Normal sample_config, 1) /\
  @loadFromS3 working (template sample_config) (templatesBucket sample_config) 1
    = (Normal sample_template, 2) /\
  @listen working (@PORT working) "0.0.0.0" 2 = (Normal tt, 3) /\
  (@start working (@initial working 0) =
     (Normal tt,
      @mkProc working (Some sample_config) (Some sample_template) 3 true None
        [ EvInit;
          EvAssignMFElist sample_config;
          EvLoadFromS3 (template sample_config) (templatesBucket sample_config);
          EvAssignCatalogTemplate sample_template;
          EvListen (@PORT working) "0.0.0.0" ]) /\
   (forall w',
       @listening working (snd (@start working (@initial working w'))) = true ->
       @ready working (snd (@start working (@initial working w'))) = true)).
Proof.
  split; [reflexivity | split; [reflexivity | split; [reflexivity |]]].
  apply (@startup_order working 0 sample_config 1 sample_template 2 3);
    reflexivity.
Defined.

(** C4 as worded fails on the sample run: the registry is stored before
    the template is fetched, and the fetch is called with the key first
    and the bucket second, never as (bucket, key). *)
Lemma startup_not_as_specified :
  @events working started =
    [ EvInit;
      EvAssignMFElist sample_config;
      EvLoadFromS3 "catalog.html" "mfe-templates";
      EvAssignCatalogTemplate sample_template;
      EvListen (PortNumber 3000) "0.0.0.0" ] /\
  ~ In (EvLoadFromS3 (templatesBucket sample_config) (template sample_config))
       (@events working started) /\
  ~ startup_as_specified sample_config sample_template
      (@events working started).
Proof.
  split; [reflexivity | split].
  - vm_compute. intros [H|[H|[H|[H|[H|[]]]]]]; discriminate.
  - intros (pt & host & H). vm_compute in H. discriminate.
Qed.

Lemma cache_written_once_at_startup_witness :
  let reqs := [GET "/productdetails"; GET "/health"; GET "/missing";
               GET "/error"] in
  let p := snd (@main working 0 reqs) in
  @listening working started = true /\
  (@ready working started = true /\
   @MFElist working p = @MFElist working started /\
   @catalogTemplate working p = @catalogTemplate working started /\
   length (filter writes_MFElist (@events working p)) = 1 /\
   length (filter writes_catalogTemplate (@events working p)) = 1 /\
   length (filter store_io (@events working p)) = 2 /\
   filter touches_cache_or_stores (@new_events working started p) = [] /\
   (forall req q,
       @MFElist working (@proc_after working req q) = @MFElist working q /\
       @catalogTemplate working (@proc_after working req q)
         = @catalogTemplate working q /\
       filter touches_cache_or_stores
         (@new_events working q (@proc_after working req q)) = [])).
Proof.
  intros reqs p.
  split; [reflexivity |].
  exact (@cache_written_once_at_startup working 0 reqs eq_refl).
Defined.

Lemma unmatched_path_is_404_witness :
  ~ In (url (GET "/does-not-exist")) (@registered_paths working) /\
  @handle working (GET "/does-not-exist") started =
    (Normal tt,
     [RawWriteHead 404 [("Content-Type", "text/html")];
      RawWrite (@notFoundPage working); RawEnd],
     started).
Proof.
  assert (H : ~ In (url (GET "/does-not-exist")) (@registered_paths working)).
  { simpl. intros [H|[H|[H|[H|[]]]]]; discriminate. }
  split; [exact H |].
  exact (@unmatched_path_is_404 working (GET "/does-not-exist") started H).
Defined.


(** * Further properties of app.js *)

Import Run.

Section StartUp.
Context {C : Collaborators}.

(** [start], case by case on what the three calls return. *)
Lemma start_run (w : World) :
  snd (start (initial w)) =
  match init w with
  | (Throw e, w1) =>
      mkProc None None w1 false (Some 1%Z) [EvInit; EvLogError e; EvExit 1]
  | (Normal c, w1) =>
      match loadFromS3 (template c) (templatesBucket c) w1 with
      | (Throw e, w2) =>
          mkProc (Some c) None w2 false (Some 1%Z)
                 [EvInit; EvAssignMFElist c;
                  EvLoadFromS3 (template c) (templatesBucket c);
                  EvLogError e; EvExit 1]
      | (Normal t, w2) =>
          match listen PORT "0.0.0.0" w2 with
          | (Throw e, w3) =>
              mkProc (Some c) (Some t) w3 false (Some 1%Z)
                     [EvInit; EvAssignMFElist c;
                      EvLoadFromS3 (template c) (templatesBucket c);
                      EvAssignCatalogTemplate t; EvListen PORT "0.0.0.0";
                      EvLogError e; EvExit 1]
          | (Normal _, w3) =>
              mkProc (Some c) (Some t) w3 true None
                     [EvInit; EvAssignMFElist c;
                      EvLoadFromS3 (template c) (templatesBucket c);
                      EvAssignCatalogTemplate t; EvListen PORT "0.0.0.0"]
          end
      end
  end.
Proof.
  unfold start, try_catch, bind, emit, modify, call, assign_MFElist,
    assign_catalogTemplate, MFElist_prop, gets, ret, set_listening,
    process_exit, initial; simpl.
  destruct (init w) as [[c|e] w1]; simpl; [| reflexivity].
  unfold bind, modify; simpl.
  destruct (loadFromS3 (template c) (templatesBucket c) w1)
    as [[t|e] w2]; simpl; [| reflexivity].
  destruct (listen PORT "0.0.0.0" w2) as [[[]|e] w3]; reflexivity.
Qed.

(** X1. When the registry and the template load but [fastify.listen]
    fails, [start] logs that error and exits with status 1. Both variables
    stay assigned, the process accepts nothing, and no request is
    answered. *)
Theorem listen_failure_is_fatal
    (w : World) (c : Config) (w1 : World) (t : string) (w2 : World)
    (e : JsError) (w3 : World) (reqs : list request) :
  init w = (Normal c, w1) ->
  loadFromS3 (template c) (templatesBucket c) w1 = (Normal t, w2) ->
  listen PORT "0.0.0.0" w2 = (Throw e, w3) ->
  snd (start (initial w)) =
    mkProc (Some c) (Some t) w3 false (Some 1%Z)
           [ EvInit; EvAssignMFElist c;
             EvLoadFromS3 (template c) (templatesBucket c);
             EvAssignCatalogTemplate t; EvListen PORT "0.0.0.0";
             EvLogError e; EvExit 1 ] /\
  accepting (snd (start (initial w))) = false /\
  fst (main w reqs) = [].
Proof.
  intros Hi Hl Hs.
  assert (Hp : snd (start (initial w)) =
               mkProc (Some c) (Some t) w3 false (Some 1%Z)
                 [ EvInit; EvAssignMFElist c;
                   EvLoadFromS3 (template c) (templatesBucket c);
                   EvAssignCatalogTemplate t; EvListen PORT "0.0.0.0";
                   EvLogError e; EvExit 1 ]).
  { rewrite start_run, Hi, Hl, Hs. reflexivity. }
  split; [exact Hp |]. unfold main. rewrite Hp. split; [reflexivity |].
  rewrite serve_not_accepting; reflexivity.
Qed.

(** X2. [start] never lets an exception out, and it ends in one of two
    ways: the socket is open, the process has not exited and both variables
    are set; or nothing is accepted, the exit status is 1, and the last two
    things the process did were to log the error and to exit. *)
Theorem start_ends_serving_or_exited (w : World) :
  fst (start (initial w)) = Normal tt /\
  let p := snd (start (initial w)) in
  (accepting p = true /\ exitCode p = None /\ ready p = true) \/
  (accepting p = false /\ listening p = false /\ exitCode p = Some 1%Z /\
   exists pre e, events p = pre ++ [EvLogError e; EvExit 1]).
Proof.
  split; [apply start_completes |].
  rewrite start_run.
  destruct (init w) as [[c|e] w1].
  - destruct (loadFromS3 (template c) (templatesBucket c) w1) as [[t|e] w2].
    + destruct (listen PORT "0.0.0.0" w2) as [[[]|e] w3].
      * left. repeat split.
      * right. repeat split.
        exists [EvInit; EvAssignMFElist c;
                EvLoadFromS3 (template c) (templatesBucket c);
                EvAssignCatalogTemplate t; EvListen PORT "0.0.0.0"], e.
        reflexivity.
    + right. repeat split.
      exists [EvInit; EvAssignMFElist c;
              EvLoadFromS3 (template c) (templatesBucket c)], e.
      reflexivity.
  - right. repeat split. exists [EvInit], e. reflexivity.
Qed.

(** X3. When [init()] fails, the template fetch is not attempted: the only
    collaborator that ran is [init], neither variable is assigned, and the
    error that is logged is the one [init] raised. *)
Theorem init_failure_skips_fetch (w : World) (e : JsError) (w1 : World) :
  init w = (Throw e, w1) ->
  let p := snd (start (initial w)) in
  MFElist p = None /\ catalogTemplate p = None /\ world p = w1 /\
  events p = [EvInit; EvLogError e; EvExit 1] /\
  (forall k b, ~ In (EvLoadFromS3 k b) (events p)).
Proof.
  intros Hi. simpl. rewrite start_run, Hi. simpl.
  repeat split. intros k b [H|[H|[H|[]]]]; discriminate.
Qed.

(** X4. When the template fetch fails, the registry stays in [MFElist],
    [catalogTemplate] stays undefined, the fetch was called once with the
    registry's [template] and [templatesBucket], and the error that is
    logged is the one the fetch raised. *)
Theorem fetch_failure_leaves_registry_only
    (w : World) (c : Config) (w1 : World) (e : JsError) (w2 : World) :
  init w = (Normal c, w1) ->
  loadFromS3 (template c) (templatesBucket c) w1 = (Throw e, w2) ->
  let p := snd (start (initial w)) in
  MFElist p = Some c /\ catalogTemplate p = None /\ world p = w2 /\
  ready p = false /\
  events p = [ EvInit; EvAssignMFElist c;
               EvLoadFromS3 (template c) (templatesBucket c);
               EvLogError e; EvExit 1 ].
Proof.
  intros Hi Hl. simpl. rewrite start_run, Hi, Hl. simpl. repeat split.
Qed.

(** X5. The port handed to [fastify.listen] is the text of [PORT] in the
    environment when that is set and not empty, and the number 3000 in
    every other case, the empty text included; it is never the empty
    text. *)
Theorem port_defaults_to_3000 :
  (forall s, PORT = PortString s <-> env_PORT = Some s /\ s <> "") /\
  (forall n, PORT = PortNumber n <->
             n = 3000%Z /\ (env_PORT = None \/ env_PORT = Some "")).
Proof.
  unfold PORT. split.
  - intros s. destruct env_PORT as [s0|].
    + destruct (String.eqb_spec s0 "") as [-> | Hne].
      * split; [discriminate |]. intros [H Hs]. inversion H. congruence.
      * split.
        -- intros H. inversion H; subst. auto.
        -- intros [H _]. inversion H. reflexivity.
    + split; [discriminate | intros [H _]; discriminate].
  - intros n. destruct env_PORT as [s0|].
    + destruct (String.eqb_spec s0 "") as [-> | Hne].
      * split.
        -- intros H. inversion H. auto.
        -- intros [-> _]. reflexivity.
      * split; [discriminate |].
        intros [_ [H | H]]; [discriminate | inversion H; congruence].
    + split.
      * intros H. inversion H. auto.
      * intros [-> _]. reflexivity.
Qed.

End StartUp.

Section Requests.
Context {C : Collaborators}.

Lemma accepting_stepped p w evs : accepting (stepped p w evs) = accepting p.
Proof. reflexivity. Qed.

Lemma unmatched_is_not_productdetails req :
  find_route (url req) = None -> is_productdetails req = false.
Proof.
  intros Hnone. unfold is_productdetails.
  destruct (String.eqb_spec (url req) "/productdetails") as [Heq | _];
    [| reflexivity].
  rewrite Heq in Hnone. discriminate.
Qed.

(** What a request adds to the process: nothing, unless it is for the
    content route, which makes one transformer call on the template
    variable. *)
Lemma handle_transformer_calls req p :
  exists w evs,
    proc_after req p = stepped p w evs /\
    filter calls_transformer evs =
      (if is_productdetails req
       then [EvTransformTemplate [vTemplate (catalogTemplate p)]]
       else []).
Proof.
  unfold proc_after.
  destruct (request_cases req) as [-> | [-> | [-> | [-> | Hnone]]]].
  - rewrite handle_hello. exists (world p), []. rewrite stepped_id. auto.
  - rewrite handle_error. exists (world p), []. rewrite stepped_id. auto.
  - rewrite handle_health. exists (world p), []. rewrite stepped_id. auto.
  - rewrite handle_productdetails.
    destruct (transformTemplate [vTemplate (catalogTemplate p)] (world p))
      as [[html|e] w]; simpl; eauto.
  - rewrite (handle_unmatched req p Hnone),
      (unmatched_is_not_productdetails req Hnone).
    exists (world p), []. rewrite stepped_id. auto.
Qed.

Lemma serve_transformer_calls reqs : forall p,
  accepting p = true ->
  exists w evs,
    snd (serve reqs p) = stepped p w evs /\
    filter calls_transformer evs =
      map (fun _ => EvTransformTemplate [vTemplate (catalogTemplate p)])
          (filter is_productdetails reqs) /\
    length (fst (serve reqs p)) = length reqs.
Proof.
  induction reqs as [|req rest IH]; intros p Hacc; simpl.
  - exists (world p), []. rewrite stepped_id. auto.
  - rewrite Hacc.
    destruct (handle_transformer_calls req p) as (w1 & evs1 & Hp1 & Hf1).
    assert (Hacc1 : accepting (proc_after req p) = true).
    { rewrite Hp1, accepting_stepped. exact Hacc. }
    destruct (IH (proc_after req p) Hacc1) as (w2 & evs2 & Hp2 & Hf2 & Hlen).
    destruct (serve rest (proc_after req p)) as [rs p2]; simpl in *.
    exists w2, (evs1 ++ evs2). repeat split.
    + rewrite Hp2, Hp1. apply stepped_stepped.
    + rewrite filter_app, Hf1, Hf2, Hp1.
      destruct (is_productdetails req); reflexivity.
    + rewrite Hlen. reflexivity.
Qed.

Lemma serve_replies_complete reqs : forall p,
  Forall (fun r => complete r = true) (fst (serve reqs p)).
Proof.
  induction reqs as [|req rest IH]; intros p; simpl.
  - constructor.
  - destruct (accepting p); [| constructor].
    specialize (IH (proc_after req p)).
    destruct (serve rest (proc_after req p)) as [rs p2]; simpl in *.
    constructor; [| exact IH].
    destruct (reply_is_complete req p) as (_ & Hh & He).
    unfold complete. rewrite Hh, He. reflexivity.
Qed.

(** X6. A process that accepts connections answers every request: there
    is one reply for each, every one of them has its header block out and
    its channel closed, and the process still accepts connections
    afterwards, since no handler closes the socket or ends the process. *)
Theorem every_request_is_answered (reqs : list request) (p : proc) :
  accepting p = true ->
  length (fst (serve reqs p)) = length reqs /\
  Forall (fun r => complete r = true) (fst (serve reqs p)) /\
  accepting (snd (serve reqs p)) = true /\
  listening (snd (serve reqs p)) = listening p /\
  exitCode (snd (serve reqs p)) = exitCode p.
Proof.
  intros Hacc.
  destruct (serve_transformer_calls reqs p Hacc) as (w & evs & Hp & _ & Hlen).
  split; [exact Hlen |]. split; [apply serve_replies_complete |].
  rewrite Hp. repeat split; assumption.
Qed.

(** X7. The composed page is not kept between requests: over any run that
    started, the transformer is called exactly once for each request to
    [/productdetails] and never for any other request. *)
Theorem transformer_called_once_per_page_request
    (w : World) (reqs : list request) :
  listening (snd (start (initial w))) = true ->
  length (filter calls_transformer (events (snd (main w reqs)))) =
  length (filter is_productdetails reqs).
Proof.
  intros Hl. unfold main.
  assert (Hacc : accepting (snd (start (initial w))) = true /\
                 filter calls_transformer (events (snd (start (initial w))))
                   = []).
  { revert Hl. rewrite start_run.
    destruct (init w) as [[c|e] w1]; [| discriminate].
    destruct (loadFromS3 (template c) (templatesBucket c) w1) as [[t|e] w2];
      [| discriminate].
    destruct (listen PORT "0.0.0.0" w2) as [[[]|e] w3]; [| discriminate].
    auto. }
  destruct Hacc as [Hacc Hnone].
  destruct (serve_transformer_calls reqs _ Hacc) as (w' & evs & Hp & Hf & _).
  rewrite Hp. unfold stepped; simpl.
  rewrite filter_app, Hnone, Hf. simpl. apply length_map.
Qed.

(** X8. Over any run that started, every call of the transformer has one
    argument, the template that [start] fetched with the registry's
    [template] and [templatesBucket]. *)
Theorem transformer_always_gets_fetched_template
    (w : World) (reqs : list request) (c : Config) (w1 : World) (t : string)
    (w2 : World) (args : list jsval) :
  listening (snd (start (initial w))) = true ->
  init w = (Normal c, w1) ->
  loadFromS3 (template c) (templatesBucket c) w1 = (Normal t, w2) ->
  In (EvTransformTemplate args) (events (snd (main w reqs))) ->
  args = [VString t].
Proof.
  intros Hl Hi Hf Hin. unfold main in Hin.
  revert Hl Hin. rewrite start_run, Hi, Hf.
  destruct (listen PORT "0.0.0.0" w2) as [[[]|e] w3]; [| discriminate].
  intros _ Hin.
  match type of Hin with
  | In _ (events (snd (serve reqs ?p0))) =>
      destruct (serve_transformer_calls reqs p0 eq_refl)
        as (w' & evs & Hp & Hcalls & _)
  end.
  rewrite Hp in Hin. unfold stepped in Hin; simpl in Hin.
  destruct Hin as [H|[H|[H|[H|[H|Hin]]]]]; try discriminate.
  assert (Hin' : In (EvTransformTemplate args) (filter calls_transformer evs)).
  { apply filter_In. split; [exact Hin | reflexivity]. }
  rewrite Hcalls in Hin'. apply in_map_iff in Hin'.
  destruct Hin' as (req & Heq & _). simpl in Heq. inversion Heq. reflexivity.
Qed.

End Requests.

Section Routing.
Context {C : Collaborators}.

(** X9. The not-found answer is given to the unregistered paths and to no
    other: a request gets status 404 with the not-found page exactly when
    its path is none of the four registered ones. *)
Theorem not_found_iff_unregistered (req : request) (p : proc) :
  reply_of req p = streamed 404 notFoundPage <->
  ~ In (url req) registered_paths.
Proof.
  split.
  - unfold reply_of.
    destruct (request_cases req) as [-> | [-> | [-> | [-> | Hnone]]]].
    + rewrite handle_hello. discriminate.
    + rewrite handle_error. discriminate.
    + rewrite handle_health. discriminate.
    + rewrite handle_productdetails.
      destruct (transformTemplate [vTemplate (catalogTemplate p)] (world p))
        as [[html|e] w]; discriminate.
    + intros _. apply find_route_None. exact Hnone.
  - intros Hout. unfold reply_of.
    rewrite (handle_unmatched req p); [reflexivity |].
    apply find_route_None. exact Hout.
Qed.

(** X10. Whatever the request and the state of the process, the reply is
    either one JSON payload sent with status 200, or a header block with
    content type text/html and status 200, 404 or 500, followed by one
    body chunk and the end of the stream. *)
Theorem reply_has_one_of_two_shapes (req : request) (p : proc) :
  (exists payload, reply_of req p = [ReplySend 200 payload]) \/
  (exists code body,
      reply_of req p =
        [RawWriteHead code [("Content-Type", "text/html")];
         RawWrite body; RawEnd] /\
      (code = 200 \/ code = 404 \/ code = 500)%Z).
Proof.
  unfold reply_of.
  destruct (request_cases req) as [-> | [-> | [-> | [-> | Hnone]]]].
  - rewrite handle_hello. left. eexists. reflexivity.
  - rewrite handle_error. right. exists 500%Z, serverErrorPage. auto.
  - rewrite handle_health. left. eexists. reflexivity.
  - rewrite handle_productdetails.
    destruct (transformTemplate [vTemplate (catalogTemplate p)] (world p))
      as [[html|e] w]; right.
    + exists 200%Z, html. auto.
    + exists 500%Z, serverErrorPage. auto.
  - rewrite (handle_unmatched req p Hnone).
    right. exists 404%Z, notFoundPage. auto.
Qed.

(** X11. The error page is sent in two cases and no other: the request is
    for [/error], or it is for [/productdetails] and the transformer
    fails. *)
Theorem server_error_iff (req : request) (p : proc) :
  reply_of req p = streamed 500 serverErrorPage <->
  url req = "/error" \/
  (url req = "/productdetails" /\
   exists e w,
     transformTemplate [vTemplate (catalogTemplate p)] (world p) = (Throw e, w)).
Proof.
  split.
  - unfold reply_of.
    destruct (request_cases req) as [-> | [-> | [-> | [-> | Hnone]]]].
    + rewrite handle_hello. discriminate.
    + intros _. left. reflexivity.
    + rewrite handle_health. discriminate.
    + rewrite handle_productdetails.
      destruct (transformTemplate [vTemplate (catalogTemplate p)] (world p))
        as [[html|e] w] eqn:Ht; [discriminate |].
      intros _. right. split; [reflexivity |]. exists e, w. reflexivity.
    + rewrite (handle_unmatched req p Hnone). discriminate.
  - destruct req as [path]; simpl. unfold reply_of.
    intros [-> | [-> (e & w & Ht)]].
    + rewrite handle_error. reflexivity.
    + rewrite handle_productdetails, Ht. reflexivity.
Qed.

(** X12. A request for any path other than [/productdetails], registered
    or not, completes and leaves the process exactly as it was: the two
    variables, the world of the stores and of the transformer, and the
    record of events. With the two static pages taken as fixed texts, its
    reply is the same in every state of the process. *)
Theorem other_routes_are_stateless (req : request) (p q : proc) :
  url req <> "/productdetails" ->
  handle req p = (Normal tt, reply_of req q, p).
Proof.
  intros Hne. unfold reply_of.
  destruct (request_cases req) as [-> | [-> | [-> | [-> | Hnone]]]].
  - rewrite !handle_hello. reflexivity.
  - rewrite !handle_error. reflexivity.
  - rewrite !handle_health. reflexivity.
  - exfalso. apply Hne. reflexivity.
  - rewrite !(handle_unmatched req _ Hnone). reflexivity.
Qed.

(** X13. What [/productdetails] answers does not depend on the registry
    variable: two processes with the same template variable and the same
    outside world get the same reply, make the same transformer call and
    leave the outside world in the same state, whatever [MFElist] holds in
    either. *)
Theorem page_ignores_registry (p q : proc) :
  catalogTemplate p = catalogTemplate q ->
  world p = world q ->
  fst (handle (GET "/productdetails") p) =
    fst (handle (GET "/productdetails") q) /\
  new_events p (proc_after (GET "/productdetails") p) =
    new_events q (proc_after (GET "/productdetails") q) /\
  world (proc_after (GET "/productdetails") p) =
    world (proc_after (GET "/productdetails") q).
Proof.
  intros Ht Hw. unfold proc_after.
  rewrite !handle_productdetails, Ht, Hw.
  destruct (transformTemplate [vTemplate (catalogTemplate q)] (world q))
    as [[html|e] w]; simpl; rewrite !new_events_stepped; auto.
Qed.

(** X14. When the transformer fails, the handler of [/productdetails]
    logs the transformer's error to the console, once, and throws a new
    error named [Error] whose message is the text of the one it caught;
    nothing has been written to the reply at that point. *)
Theorem page_failure_is_logged_and_rethrown
    (req : request) (p : proc) (e : JsError) (w : World) :
  transformTemplate [vTemplate (catalogTemplate p)] (world p) = (Throw e, w) ->
  exists e' p',
    route_productdetails req (p, []) = (Throw e', (p', [])) /\
    err_name e' = "Error" /\
    err_message e' = err_toString e /\
    new_events p p' =
      [EvTransformTemplate [vTemplate (catalogTemplate p)]; EvConsoleLog e] /\
    MFElist p' = MFElist p /\ catalogTemplate p' = catalogTemplate p.
Proof.
  intros Ht.
  exists (new_Error e),
         (stepped p w [EvTransformTemplate [vTemplate (catalogTemplate p)];
                       EvConsoleLog e]).
  rewrite run_productdetails, Ht, new_events_stepped. repeat split.
Qed.

(** X15. [responseStream] completes normally exactly when nothing has been
    written to the reply yet and the status code, turned into a 32-bit
    integer as [writeHead] does, is between 100 and 999. The reply then
    holds, once the stream has drained, the header block with that integer,
    the body and the end. In every other case [responseStream] throws and
    the reply is as it was. *)
Theorem responseStream_succeeds_iff
    (str : string) (code : Z) (p : proc) (r : reply) :
  (fst (responseStream str code (p, r)) = Normal tt <->
   r = [] /\ (100 <= toInt32 code <= 999)%Z) /\
  (fst (responseStream str code (p, r)) = Normal tt ->
   snd (responseStream str code (p, r)) = (p, streamed (toInt32 code) str)) /\
  (fst (responseStream str code (p, r)) <> Normal tt ->
   snd (responseStream str code (p, r)) = (p, r) /\
   exists e, fst (responseStream str code (p, r)) = Throw e).
Proof.
  destruct r as [|o r].
  - unfold responseStream, bind, on_reply, raw_writeHead.
    cbn [fst snd headersSent].
    destruct ((toInt32 code <? 100) || (999 <? toInt32 code))%Z eqn:E;
      cbn [fst snd].
    + apply orb_true_iff in E.
      repeat split; try discriminate.
      * intros [_ Hr]. destruct E as [E | E]; apply Z.ltb_lt in E; lia.
      * eexists. reflexivity.
    + apply orb_false_iff in E. destruct E as [E1 E2].
      apply Z.ltb_ge in E1. apply Z.ltb_ge in E2.
      repeat split; try lia; exfalso; auto.
  - unfold responseStream, bind, on_reply, raw_writeHead.
    cbn [fst snd headersSent].
    repeat split; try discriminate.
    + intros [Hr _]. discriminate.
    + eexists. reflexivity.
Qed.

(** X16. A reply can be streamed once. A second [responseStream] on the
    same reply throws, and the page already streamed stays as it is. *)
Theorem responseStream_only_once
    (a b : string) (c1 c2 : Z) (p : proc) :
  (100 <= c1 <= 999)%Z ->
  (responseStream a c1 ;; responseStream b c2) (p, []) =
    (Throw ERR_HTTP_HEADERS_SENT, (p, streamed c1 a)).
Proof.
  intros Hc. unfold bind at 1. rewrite responseStream_fresh by exact Hc.
  reflexivity.
Qed.

(** X17. The handler of [/productdetails] does not check that the
    template is there. With [catalogTemplate] undefined it still calls the
    transformer, with [undefined] as the argument, and answers 200 with
    whatever page comes back, or 500 when the transformer throws. *)
Theorem page_without_template_still_calls_transformer (p : proc) :
  catalogTemplate p = None ->
  new_events p (proc_after (GET "/productdetails") p) <> [] /\
  hd_error (new_events p (proc_after (GET "/productdetails") p)) =
    Some (EvTransformTemplate [VUndefined]) /\
  reply_of (GET "/productdetails") p =
    match fst (transformTemplate [VUndefined] (world p)) with
    | Normal html => streamed 200 html
    | Throw _ => streamed 500 serverErrorPage
    end.
Proof.
  intros Hnone. unfold proc_after, reply_of.
  rewrite handle_productdetails, Hnone. simpl.
  destruct (transformTemplate [VUndefined] (world p)) as [[html|e] w]; simpl;
    rewrite new_events_stepped; repeat split; discriminate.
Qed.

(** X18. [GET /hello] answers 200 with the welcome message in every state
    of the process and leaves the process as it was. *)
Theorem hello_always_welcomes (p : proc) :
  handle (GET "/hello") p =
    (Normal tt,
     [ReplySend 200
        [("message",
          JString "Welcome to the Micro-Frontends in AWS example")]],
     p) /\
  In "/hello" registered_paths.
Proof. split; [apply handle_hello | simpl; auto]. Qed.

End Routing.

(** ** The further properties on the sample runs *)

Lemma listen_failure_is_fatal_witness :
  let e := mkError "Error" "listen EADDRINUSE" in
  @init port_in_use 0 = (Normal sample_config, 1) /\
  @loadFromS3 port_in_use (template sample_config)
    (templatesBucket sample_config) 1 = (Normal sample_template, 2) /\
  @listen port_in_use (@PORT port_in_use) "0.0.0.0" 2 = (Throw e, 3) /\
  (snd (@start port_in_use (@initial port_in_use 0)) =
     @mkProc port_in_use (Some sample_config) (Some sample_template) 3 false
       (Some 1%Z)
       [ EvInit; EvAssignMFElist sample_config;
         EvLoadFromS3 (template sample_config) (templatesBucket sample_config);
         EvAssignCatalogTemplate sample_template;
         EvListen (@PORT port_in_use) "0.0.0.0";
         EvLogError e; EvExit 1 ] /\
   @accepting port_in_use (snd (@start port_in_use (@initial port_in_use 0)))
     = false /\
   fst (@main port_in_use 0 [GET "/health"; GET "/productdetails"]) = []).
Proof.
  intros e.
  split; [reflexivity | split; [reflexivity | split; [reflexivity |]]].
  exact (@listen_failure_is_fatal port_in_use 0 sample_config 1
           sample_template 2 e 3 [GET "/health"; GET "/productdetails"]
           eq_refl eq_refl eq_refl).
Defined.

Lemma init_failure_skips_fetch_witness :
  let e := mkError "ParameterNotFound" "/ssr-mfe/catalogpage" in
  let p := snd (@start missing_config (@initial missing_config 0)) in
  @init missing_config 0 = (Throw e, 1) /\
  (@MFElist missing_config p = None /\
   @catalogTemplate missing_config p = None /\
   @world missing_config p = 1 /\
   @events missing_config p = [EvInit; EvLogError e; EvExit 1] /\
   (forall k b, ~ In (EvLoadFromS3 k b) (@events missing_config p))).
Proof.
  intros e p. split; [reflexivity |].
  exact (@init_failure_skips_fetch missing_config 0 e 1 eq_refl).
Defined.

Lemma fetch_failure_leaves_registry_only_witness :
  let e := mkError "NoSuchKey" "catalog.html" in
  let p := snd (@start missing_template (@initial missing_template 0)) in
  @init missing_template 0 = (Normal sample_config, 1) /\
  @loadFromS3 missing_template (template sample_config)
    (templatesBucket sample_config) 1 = (Throw e, 2) /\
  (@MFElist missing_template p = Some sample_config /\
   @catalogTemplate missing_template p = None /\
   @world missing_template p = 2 /\
   @ready missing_template p = false /\
   @events missing_template p =
     [ EvInit; EvAssignMFElist sample_config;
       EvLoadFromS3 (template sample_config) (templatesBucket sample_config);
       EvLogError e; EvExit 1 ]).
Proof.
  intros e p. split; [reflexivity | split; [reflexivity |]].
  exact (@fetch_failure_leaves_registry_only missing_template 0 sample_config
           1 e 2 eq_refl eq_refl).
Defined.

Lemma every_request_is_answered_witness :
  let reqs := [GET "/productdetails"; GET "/error"; GET "/nowhere";
               GET "/productdetails"; GET "/hello"] in
  @accepting working started = true /\
  (length (fst (@serve working reqs started)) = length reqs /\
   Forall (fun r => complete r = true) (fst (@serve working reqs started)) /\
   @accepting working (snd (@serve working reqs started)) = true /\
   @listening working (snd (@serve working reqs started))
     = @listening working started /\
   @exitCode working (snd (@serve working reqs started))
     = @exitCode working started).
Proof.
  intros reqs. split; [reflexivity |].
  exact (@every_request_is_answered working reqs started eq_refl).
Defined.

Lemma transformer_called_once_per_page_request_witness :
  let reqs := [GET "/productdetails"; GET "/health"; GET "/productdetails";
               GET "/error"; GET "/nowhere"] in
  @listening working (snd (@start working (@initial working 0))) = true /\
  length (filter calls_transformer
            (@events working (snd (@main working 0 reqs)))) =
  length (filter is_productdetails reqs).
Proof.
  intros reqs. split; [reflexivity |].
  exact (@transformer_called_once_per_page_request working 0 reqs eq_refl).
Defined.

Lemma transformer_always_gets_fetched_template_witness :
  let reqs := [GET "/health"; GET "/productdetails"] in
  @listening working (snd (@start working (@initial working 0))) = true /\
  @init working 0 = (Normal sample_config, 1) /\
  @loadFromS3 working (template sample_config)
    (templatesBucket sample_config) 1 = (Normal sample_template, 2) /\
  In (EvTransformTemplate [VString sample_template])
     (@events working (snd (@main working 0 reqs))) /\
  [VString sample_template] = [VString sample_template].
Proof.
  intros reqs.
  assert (Hin : In (EvTransformTemplate [VString sample_template])
                   (@events working (snd (@main working 0 reqs)))).
  { vm_compute. do 5 right. left. reflexivity. }
  split; [reflexivity | split; [reflexivity | split; [reflexivity |]]].
  split; [exact Hin |].
  exact (@transformer_always_gets_fetched_template working 0 reqs
           sample_config 1 sample_template 2 [VString sample_template]
           eq_refl eq_refl eq_refl Hin).
Defined.

Lemma other_routes_are_stateless_witness :
  url (GET "/health") <> "/productdetails" /\
  @handle working (GET "/health") started =
    (Normal tt, @reply_of working (GET "/health") (@initial working 7),
     started).
Proof.
  assert (H : url (GET "/health") <> "/productdetails") by discriminate.
  split; [exact H |].
  exact (@other_routes_are_stateless working (GET "/health") started
           (@initial working 7) H).
Defined.

Lemma page_ignores_registry_witness :
  @MFElist working started <> @MFElist working started_without_registry /\
  @catalogTemplate working started
    = @catalogTemplate working started_without_registry /\
  @world working started = @world working started_without_registry /\
  (fst (@handle working (GET "/productdetails") started) =
     fst (@handle working (GET "/productdetails") started_without_registry) /\
   @new_events working started
      (@proc_after working (GET "/productdetails") started) =
     @new_events working started_without_registry
       (@proc_after working (GET "/productdetails") started_without_registry) /\
   @world working (@proc_after working (GET "/productdetails") started) =
     @world working
       (@proc_after working (GET "/productdetails") started_without_registry)).
Proof.
  split; [discriminate | split; [reflexivity | split; [reflexivity |]]].
  exact (@page_ignores_registry working started started_without_registry
           eq_refl eq_refl).
Defined.

Lemma page_failure_is_logged_and_rethrown_witness :
  let p := snd (@start broken_transformer (@initial broken_transformer 0)) in
  let e := mkError "Error" "fragment unavailable" in
  @transformTemplate broken_transformer
    [vTemplate (@catalogTemplate broken_transformer p)]
    (@world broken_transformer p) = (Throw e, 4) /\
  exists e' p',
    @route_productdetails broken_transformer (GET "/productdetails") (p, [])
      = (Throw e', (p', [])) /\
    err_name e' = "Error" /\
    err_message e' = err_toString e /\
    @new_events broken_transformer p p' =
      [EvTransformTemplate [vTemplate (@catalogTemplate broken_transformer p)];
       EvConsoleLog e] /\
    @MFElist broken_transformer p' = @MFElist broken_transformer p /\
    @catalogTemplate broken_transformer p'
      = @catalogTemplate broken_transformer p.
Proof.
  intros p e. split; [reflexivity |].
  exact (@page_failure_is_logged_and_rethrown broken_transformer
           (GET "/productdetails") p e 4 eq_refl).
Defined.

Lemma responseStream_only_once_witness :
  (100 <= 200 <= 999)%Z /\
  (@responseStream working "<p>page</p>" 200 ;;
   @responseStream working (@serverErrorPage working) 500) (started, []) =
    (Throw ERR_HTTP_HEADERS_SENT,
     (started, streamed 200 "<p>page</p>")).
Proof.
  assert (H : (100 <= 200 <= 999)%Z) by (split; discriminate).
  split; [exact H |].
  exact (@responseStream_only_once working "<p>page</p>"
           (@serverErrorPage working) 200 500 started H).
Defined.

Lemma page_without_template_still_calls_transformer_witness :
  let p := started_without_template in
  @catalogTemplate working p = None /\
  (@new_events working p (@proc_after working (GET "/productdetails") p)
     <> [] /\
   hd_error (@new_events working p
               (@proc_after working (GET "/productdetails") p)) =
     Some (EvTransformTemplate [VUndefined]) /\
   @reply_of working (GET "/productdetails") p =
     match fst (@transformTemplate working [VUndefined] (@world working p)) with
     | Normal html => streamed 200 html
     | Throw _ => streamed 500 (@serverErrorPage working)
     end).
Proof.
  intros p. split; [reflexivity |].
  exact (@page_without_template_still_calls_transformer working p eq_refl).
Defined.
